(** * Shape-area aggregation: SRP / OCP teaching snippets

    A shallow embedding of the TypeScript snippets of the repository
    (the OCP-compliant calculator, the SRP-compliant calculator with its
    [Outputter], the SRP-violating calculator and the OCP-violating
    calculator), together with the part of the ECMAScript runtime they
    rely on: IEEE-754 binary64 numbers, [Array.prototype.reduce],
    [instanceof], the [+] operator on [undefined], template literals,
    [Number::toString] and [JSON.stringify]. *)

From Stdlib Require Import ZArith QArith Qround Qabs Qminmax Bool List String Ascii.
From Stdlib Require Import Permutation Lia DecimalString.
From Stdlib Require Import Floats.SpecFloat.
From Stdlib Require Import Reals Machin Lra.
Import ListNotations.

Set Warnings "-register-all".

Local Open Scope Z_scope.

(** ** The arithmetic the snippets use

    The TypeScript code is written against the type [number] and uses
    integer literals, the literal [0.5], [Math.PI], [+] and [*].  The
    embedding keeps exactly that interface, so that the same code can be
    read over the doubles of the runtime and over exact real numbers. *)

Class Number (N : Type) := {
  num_lit : Z -> N;
  num_half : N;
  Math_PI : N;
  num_add : N -> N -> N;
  num_mul : N -> N -> N
}.

Declare Scope num_scope.
Delimit Scope num_scope with num.
Infix "+" := num_add : num_scope.
Infix "*" := num_mul : num_scope.

(** ** ECMAScript numbers: IEEE-754 binary64, round to nearest even *)

Module JS.

Definition prec : Z := 53.
Definition emax : Z := 1024.

Definition number : Type := spec_float.

Definition add : number -> number -> number := SFadd prec emax.
Definition mul : number -> number -> number := SFmul prec emax.

Definition NaN : number := S754_nan.
Definition Infinity : number := S754_infinity false.
Definition pos_zero : number := S754_zero false.

(** [F_of_decimal s q] is the double nearest to [s * 10^q] (ties to
    even): the value of a decimal literal with digits [s] and exponent
    [q]. *)
Definition F_of_positive_decimal (s : positive) (q : Z) : number :=
  if 0 <=? q then binary_normalize prec emax (Zpos s * 10 ^ q) 0 false
  else
    let '(mz, ez, lz) :=
      SFdiv_core_binary prec emax (Zpos s) 0 (10 ^ (- q)) 0 in
    binary_round_aux prec emax false mz ez lz.

Definition F_of_decimal (s q : Z) : number :=
  match s with
  | Z0 => S754_zero false
  | Zpos p => F_of_positive_decimal p q
  | Zneg p => SFopp (F_of_positive_decimal p q)
  end.

(** Integer literals. *)
Definition lit (z : Z) : number := F_of_decimal z 0.

(** [0.5] and [Math.PI] (bit pattern 0x400921FB54442D18). *)
Definition half : number := S754_finite false 4503599627370496 (-53).
Definition PI : number := S754_finite false 7074237752028440 (-51).

Definition is_finite (x : number) : bool :=
  match x with
  | S754_zero _ | S754_finite _ _ _ => true
  | S754_infinity _ | S754_nan => false
  end.

Definition is_nan (x : number) : bool :=
  match x with S754_nan => true | _ => false end.

(** A canonical, strictly positive, finite double. *)
Definition positive_finite (x : number) : bool :=
  match x with
  | S754_finite false m e => SpecFloat.bounded prec emax m e
  | _ => false
  end.

(** Not NaN and sign bit clear: [+0], a positive finite double or
    [+Infinity]. *)
Definition nonneg (x : number) : bool :=
  match x with
  | S754_zero false | S754_finite false _ _ | S754_infinity false => true
  | _ => false
  end.

(** [x] is a zero, a finite number or an infinity of sign [s]. *)
Definition has_sign (s : bool) (x : number) : Prop :=
  match x with
  | S754_zero s' | S754_infinity s' | S754_finite s' _ _ => s' = s
  | S754_nan => False
  end.

Definition number_eqb (x y : number) : bool :=
  match x, y with
  | S754_zero a, S754_zero b => Bool.eqb a b
  | S754_infinity a, S754_infinity b => Bool.eqb a b
  | S754_nan, S754_nan => true
  | S754_finite a m e, S754_finite b m' e' =>
      Bool.eqb a b && Pos.eqb m m' && Z.eqb e e'
  | _, _ => false
  end.

(** The exact rational value of a finite double. *)
Definition to_Q (x : number) : Q :=
  match x with
  | S754_finite s m e =>
      let v := (inject_Z (Zpos m) * Qpower 2 e)%Q in
      if s then Qopp v else v
  | _ => 0%Q
  end.

(** The same value as a real number. *)
Definition to_R (x : number) : R :=
  match x with
  | S754_finite s m e =>
      (IZR (cond_Zopp s (Zpos m)) *
       (if 0 <=? e then IZR (2 ^ e) else / IZR (2 ^ (- e))))%R
  | _ => 0%R
  end.

(** [Number.MAX_VALUE]. *)
Definition MAX_VALUE : number := S754_finite false 9007199254740991 971.

(** Relative closeness of two results: both finite and at most [tol]
    times the larger magnitude apart, or the same non-finite value. *)
Definition close_to (tol : Q) (x y : number) : bool :=
  if is_finite x && is_finite y then
    Qle_bool (Qabs (to_Q x - to_Q y))
             (tol * Qmax (Qabs (to_Q x)) (Qabs (to_Q y)))%Q
  else number_eqb x y.

(** *** Number::toString(x, 10) *)

(** The [n] with [10^(n-1) <= v < 10^n], searched upwards from the
    decimal exponent of the smallest subnormal. *)
Fixpoint dec_exponent_from (fuel : nat) (n : Z) (v : Q) : Z :=
  match fuel with
  | O => n
  | S fuel' =>
      if Qle_bool (Qpower 10 n) v then dec_exponent_from fuel' (n + 1) v
      else n
  end.

Definition dec_exponent (v : Q) : Z := dec_exponent_from 700 (-324) v.

Definition Qabs_diff (a b : Q) : Q := Qabs (a - b)%Q.

(** The candidates with [k] digits: the two multiples of [10^(n-k)] that
    enclose [v]; one is kept when it rounds back to [x], the closer one
    (the even one on a tie) when both do. *)
Definition digits_candidate (x : number) (v : Q) (n k : Z) : option Z :=
  let scale := Qpower 10 (n - k) in
  let lo := Qfloor (v / scale)%Q in
  let hi := lo + 1 in
  let ok s := number_eqb (F_of_decimal s (n - k)) x in
  match ok lo, ok hi with
  | true, true =>
      match Qcompare (Qabs_diff (inject_Z lo * scale)%Q v)
                     (Qabs_diff (inject_Z hi * scale)%Q v) with
      | Lt => Some lo
      | Gt => Some hi
      | Eq => Some (if Z.even lo then lo else hi)
      end
  | true, false => Some lo
  | false, true => Some hi
  | false, false => None
  end.

(** Smallest [k] first. *)
Fixpoint shortest_digits (fuel : nat) (x : number) (v : Q) (n k : Z)
  : Z * Z :=
  match fuel with
  | O => (Qfloor (v / Qpower 10 (n - k))%Q, k)
  | S fuel' =>
      match digits_candidate x v n k with
      | Some s => (s, k)
      | None => shortest_digits fuel' x v n (k + 1)
      end
  end.

Local Open Scope string_scope.

Definition string_of_Z (z : Z) : string :=
  NilZero.string_of_uint (N.to_uint (Z.to_N z)).

Fixpoint zeros (n : nat) : string :=
  match n with
  | O => EmptyString
  | S n' => String "0" (zeros n')
  end.

(** Steps 6 and 7 of Number::toString for digits [ds] (their number is
    [k]) and decimal exponent [n]. *)
Definition format_digits (ds : string) (n : Z) : string :=
  let k := Z.of_nat (String.length ds) in
  if ((-5 <=? n) && (n <=? 21))%Z then
    if (k <=? n)%Z then ds ++ zeros (Z.to_nat (n - k))
    else if (0 <? n)%Z then
      substring 0 (Z.to_nat n) ds ++ "." ++
      substring (Z.to_nat n) (Z.to_nat (k - n)) ds
    else "0." ++ zeros (Z.to_nat (- n)) ++ ds
  else
    let e := (n - 1)%Z in
    let c := if (e <? 0)%Z then "-" else "+" in
    let es := string_of_Z (Z.abs e) in
    if (k =? 1)%Z then ds ++ "e" ++ c ++ es
    else substring 0 1 ds ++ "." ++
         substring 1 (Z.to_nat (k - 1)) ds ++ "e" ++ c ++ es.

Definition positive_toString (x : number) : string :=
  let v := to_Q x in
  let n := dec_exponent v in
  let '(s, k) := shortest_digits 17 x v n 1 in
  (* a candidate equal to [10^k] is the digit 1 one decade up *)
  if (s =? 10 ^ k)%Z then format_digits "1" (n + 1)
  else format_digits (string_of_Z s) n.

Definition Number_toString (x : number) : string :=
  match x with
  | S754_nan => "NaN"
  | S754_zero _ => "0"
  | S754_infinity false => "Infinity"
  | S754_infinity true => "-Infinity"
  | S754_finite false m e => positive_toString x
  | S754_finite true m e =>
      "-" ++ positive_toString (S754_finite false m e)
  end.

End JS.

#[global] Instance JS_Number : Number JS.number := {
  num_lit := JS.lit;
  num_half := JS.half;
  Math_PI := JS.PI;
  num_add := JS.add;
  num_mul := JS.mul
}.

#[global] Instance R_Number : Number R := {
  num_lit := IZR;
  num_half := (1 / 2)%R;
  Math_PI := Rtrigo1.PI;
  num_add := Rplus;
  num_mul := Rmult
}.

(** ** Runtime constructs shared by the snippets *)

(** [arr.reduce(callback, initialValue)]: the callback is applied to the
    accumulator and to each element, by increasing index. *)
Fixpoint Array_reduce {A B : Type} (callback : B -> A -> B) (acc : B)
  (arr : list A) : B :=
  match arr with
  | [] => acc
  | x :: rest => Array_reduce callback (callback acc x) rest
  end.

(** [for (const x of arr) body]: the body transforms the variables it
    assigns (the state [S]), once per element, in order. *)
Fixpoint for_of {A S : Type} (arr : list A) (body : A -> S -> S) (st : S)
  : S :=
  match arr with
  | [] => st
  | x :: rest => for_of rest body (body x st)
  end.

(** The values that reach the console and [JSON.stringify]. *)
Inductive js_value : Type :=
| VUndefined
| VNull
| VBoolean (b : bool)
| VNumber (x : JS.number)
| VString (s : string)
| VObject (props : list (string * js_value)).

(** A template literal: its constant chunks and its substitutions, each
    substitution converted with ToString. *)
Inductive template_part : Type :=
| Chunk (s : string)
| Subst (x : JS.number).

Fixpoint template_literal (parts : list template_part) : string :=
  match parts with
  | [] => EmptyString
  | Chunk s :: rest => (s ++ template_literal rest)%string
  | Subst x :: rest => (JS.Number_toString x ++ template_literal rest)%string
  end.

(** *** JSON.stringify *)

Module JSON.

Local Open Scope string_scope.

(** What a JSON text denotes. *)
Inductive json : Type :=
| JNull
| JBool (b : bool)
| JNum (x : JS.number)
| JStr (s : string)
| JObj (members : list (string * json)).

(** SerializeJSONProperty: [undefined] is dropped, a number that is not
    finite becomes [null]. *)
Fixpoint of_value (v : js_value) : option json :=
  match v with
  | VUndefined => None
  | VNull => Some JNull
  | VBoolean b => Some (JBool b)
  | VNumber x => Some (if JS.is_finite x then JNum x else JNull)
  | VString s => Some (JStr s)
  | VObject props =>
      Some (JObj
        ((fix members (ps : list (string * js_value)) :=
            match ps with
            | [] => []
            | (k, v') :: ps' =>
                match of_value v' with
                | Some j => (k, j) :: members ps'
                | None => members ps'
                end
            end) props))
  end.

Definition dquote : string := String "034"%char EmptyString.
Definition backslash : string := String "092"%char EmptyString.

Definition hex_digit (n : nat) : ascii :=
  match n with
  | 0%nat => "0" | 1%nat => "1" | 2%nat => "2" | 3%nat => "3"
  | 4%nat => "4" | 5%nat => "5" | 6%nat => "6" | 7%nat => "7"
  | 8%nat => "8" | 9%nat => "9" | 10%nat => "a" | 11%nat => "b"
  | 12%nat => "c" | 13%nat => "d" | 14%nat => "e" | _ => "f"
  end%char.

(** QuoteJSONString, one character at a time. *)
Definition quote_char (c : ascii) : string :=
  let n := nat_of_ascii c in
  if Nat.eqb n 34 then backslash ++ dquote
  else if Nat.eqb n 92 then backslash ++ backslash
  else if Nat.eqb n 8 then backslash ++ "b"
  else if Nat.eqb n 9 then backslash ++ "t"
  else if Nat.eqb n 10 then backslash ++ "n"
  else if Nat.eqb n 12 then backslash ++ "f"
  else if Nat.eqb n 13 then backslash ++ "r"
  else if Nat.ltb n 32 then
    backslash ++ "u00" ++
    String (hex_digit (Nat.div n 16))
      (String (hex_digit (Nat.modulo n 16)) EmptyString)
  else String c EmptyString.

Fixpoint quote_chars (s : string) : string :=
  match s with
  | EmptyString => EmptyString
  | String c rest => quote_char c ++ quote_chars rest
  end.

Definition quote (s : string) : string := dquote ++ quote_chars s ++ dquote.

(** The text of a JSON value, without a gap. *)
Fixpoint render (j : json) : string :=
  match j with
  | JNull => "null"
  | JBool true => "true"
  | JBool false => "false"
  | JNum x => JS.Number_toString x
  | JStr s => quote s
  | JObj members =>
      "{" ++
      (fix render_members (ms : list (string * json)) : string :=
         match ms with
         | [] => EmptyString
         | [(k, v)] => quote k ++ ":" ++ render v
         | (k, v) :: ms' =>
             quote k ++ ":" ++ render v ++ "," ++ render_members ms'
         end) members
      ++ "}"
  end.

(** [JSON.stringify(value)]; [None] stands for the result [undefined]. *)
Definition stringify (v : js_value) : option string :=
  option_map render (of_value v).

End JSON.

(** ** The [Shape] interface

    [interface Shape { area(): number; }]: one instance per implementing
    class; an element of a [Shape[]] is an object of any implementing
    class. *)

Class Shape (N T : Type) := { area : T -> N }.
Arguments area {N T _} _.

Inductive shape (N : Type) : Type :=
| Obj : forall T : Type, Shape N T -> T -> shape N.
Arguments Obj {N T _} _.

Definition area_of {N : Type} (s : shape N) : N :=
  match s with
  | @Obj _ T inst this => @area N T inst this
  end.

(** ** The OCP-compliant snippet: [Square], [Circle], [Triangle] *)

Module OcpCompliant.

Record Square (N : Type) := { width : N }.
Record Circle (N : Type) := { radius : N }.
Record Triangle (N : Type) := { base : N; height : N }.
Arguments Build_Square {N} _.
Arguments Build_Circle {N} _.
Arguments Build_Triangle {N} _ _.
Arguments width {N} _.
Arguments radius {N} _.
Arguments base {N} _.
Arguments height {N} _.

#[global] Instance Square_Shape {N} `{Number N} : Shape N (Square N) :=
  { area := fun this => (width this * width this)%num }.

#[global] Instance Circle_Shape {N} `{Number N} : Shape N (Circle N) :=
  { area := fun this => (Math_PI * radius this * radius this)%num }.

#[global] Instance Triangle_Shape {N} `{Number N}
  : Shape N (Triangle N) :=
  { area := fun this => (num_half * base this * height this)%num }.

Record AreaCalculator (N : Type) := { shapes : list (shape N) }.
Arguments Build_AreaCalculator {N} _.
Arguments shapes {N} _.

Definition sum {N} `{Number N} (this : AreaCalculator N) : N :=
  Array_reduce (fun acc shape => (acc + area_of shape)%num) (num_lit 0)
    (shapes this).

Definition demo_shapes {N} `{Number N} : list (shape N) :=
  [Obj (Build_Square (num_lit 10)); Obj (Build_Circle (num_lit 5));
   Obj (Build_Triangle (num_lit 10) (num_lit 5))].

(** The script: what it passes to [console.log]. *)
Definition main : list js_value :=
  let shapes := demo_shapes in
  let areaCalculator := Build_AreaCalculator shapes in
  [VNumber (sum areaCalculator)].

End OcpCompliant.

(** ** The SRP-compliant snippet: [Circle], [Square], [Outputter] *)

Module SrpCompliant.

Record Circle (N : Type) := { radius : N }.
Record Square (N : Type) := { length : N }.
Arguments Build_Circle {N} _.
Arguments Build_Square {N} _.
Arguments radius {N} _.
Arguments length {N} _.

#[global] Instance Circle_Shape {N} `{Number N} : Shape N (Circle N) :=
  { area := fun this => (Math_PI * radius this * radius this)%num }.

#[global] Instance Square_Shape {N} `{Number N} : Shape N (Square N) :=
  { area := fun this => (length this * length this)%num }.

Record AreaCalculator (N : Type) := { shapes : list (shape N) }.
Arguments Build_AreaCalculator {N} _.
Arguments shapes {N} _.

Definition sum {N} `{Number N} (this : AreaCalculator N) : N :=
  Array_reduce (fun acc shape => (acc + area_of shape)%num) (num_lit 0)
    (shapes this).

Record Outputter := { areaCalculator : AreaCalculator JS.number }.

Definition toText (this : Outputter) : string :=
  template_literal
    [Chunk "Sum of the areas of provided shapes: ";
     Subst (sum (areaCalculator this))].

Definition toJson (this : Outputter) : option string :=
  JSON.stringify
    (VObject [("totalArea"%string, VNumber (sum (areaCalculator this)))]).

Definition demo_shapes {N} `{Number N} : list (shape N) :=
  [Obj (Build_Circle (num_lit 2)); Obj (Build_Square (num_lit 3));
   Obj (Build_Circle (num_lit 4))].

Definition main : list js_value :=
  let shapes := demo_shapes in
  let areaCalculator := Build_AreaCalculator shapes in
  let outputter := Build_Outputter areaCalculator in
  [VString (toText outputter);
   match toJson outputter with
   | Some text => VString text
   | None => VUndefined
   end].

End SrpCompliant.

(** ** The SRP-violating snippet: data-only classes, [instanceof] *)

Module SrpViolation.

Record Circle (N : Type) := { radius : N }.
Record Square (N : Type) := { length : N }.
Arguments Build_Circle {N} _.
Arguments Build_Square {N} _.
Arguments radius {N} _.
Arguments length {N} _.

(** An element of [(Circle | Square)[]]. *)
Inductive CircleOrSquare (N : Type) : Type :=
| IsCircle (c : Circle N)
| IsSquare (s : Square N).
Arguments IsCircle {N} _.
Arguments IsSquare {N} _.

Record AreaCalculator (N : Type) := { shapes : list (CircleOrSquare N) }.
Arguments Build_AreaCalculator {N} _.
Arguments shapes {N} _.

(** [shape instanceof C]: when the test holds, [shape] is known as an
    instance of [C] in the branch. *)
Definition instanceof_Circle {N} (shape : CircleOrSquare N)
  : option (Circle N) :=
  match shape with IsCircle c => Some c | IsSquare _ => None end.

Definition instanceof_Square {N} (shape : CircleOrSquare N)
  : option (Square N) :=
  match shape with IsSquare s => Some s | IsCircle _ => None end.

(** [if (shape instanceof Circle) { sum += ... }] then
    [if (shape instanceof Square) { sum += ... }]: two tests in a row. *)
Definition loop_body {N} `{Number N} (shape : CircleOrSquare N) (sum : N)
  : N :=
  let sum :=
    match instanceof_Circle shape with
    | Some shape => (sum + Math_PI * radius shape * radius shape)%num
    | None => sum
    end in
  let sum :=
    match instanceof_Square shape with
    | Some shape => (sum + length shape * length shape)%num
    | None => sum
    end in
  sum.

Definition sum {N} `{Number N} (this : AreaCalculator N) : N :=
  let sum := num_lit 0 in
  let sum := for_of (shapes this) loop_body sum in
  sum.

Definition output (this : AreaCalculator JS.number) : string :=
  template_literal
    [Chunk "Sum of the areas of provided shapes: "; Subst (sum this)].

Definition demo_shapes {N} `{Number N} : list (CircleOrSquare N) :=
  [IsCircle (Build_Circle (num_lit 2)); IsSquare (Build_Square (num_lit 3));
   IsCircle (Build_Circle (num_lit 4))].

Definition main : list js_value :=
  let shapes := demo_shapes in
  let areaCalculator := Build_AreaCalculator shapes in
  [VString (output areaCalculator)].

End SrpViolation.

(** ** The OCP-violating snippet: [any[]] and a callback without a
    final [return] *)

Module OcpViolation.

Record Square := { width : JS.number }.
Record Circle := { radius : JS.number }.

(** An element of [any[]]: an instance of [Square], an instance of
    [Circle], or any other value. *)
Inductive any : Type :=
| OfSquare (s : Square)
| OfCircle (c : Circle)
| Other (v : js_value).

(** [shape instanceof C]: when the test holds, [shape] is known as an
    instance of [C] in the branch. *)
Definition instanceof_Square (shape : any) : option Square :=
  match shape with OfSquare s => Some s | _ => None end.

Definition instanceof_Circle (shape : any) : option Circle :=
  match shape with OfCircle c => Some c | _ => None end.

(** What the callback can return, and so what the accumulator holds. *)
Inductive result : Type :=
| Undefined
| Num (x : JS.number).

(** ToNumber on the accumulator. *)
Definition ToNumber (v : result) : JS.number :=
  match v with
  | Undefined => JS.NaN
  | Num x => x
  end.

(** [acc + y] with a number on the right. *)
Definition plus (acc : result) (y : JS.number) : JS.number :=
  JS.add (ToNumber acc) y.

(** The callback: two guarded returns; falling off the end returns
    [undefined]. *)
Definition callback (acc : result) (shape : any) : result :=
  match instanceof_Square shape with
  | Some shape => Num (plus acc (JS.mul (width shape) (width shape)))
  | None =>
      match instanceof_Circle shape with
      | Some shape =>
          Num (plus acc (JS.mul (JS.mul JS.PI (radius shape)) (radius shape)))
      | None => Undefined
      end
  end.

Record AreaCalculator := { shapes : list any }.

Definition sum (this : AreaCalculator) : result :=
  Array_reduce callback (Num (JS.lit 0)) (shapes this).

Definition demo_shapes : list any :=
  [OfSquare (Build_Square (JS.lit 10)); OfCircle (Build_Circle (JS.lit 5))].

Definition main : list result :=
  let shapes := demo_shapes in
  let areaCalculator := Build_AreaCalculator shapes in
  [sum areaCalculator].

End OcpViolation.

(** ** The OCP-violating calculator as the accompanying text shows it:
    [else if], and a final [return total] *)

Module OcpViolationReadme.
Import OcpViolation.

Definition callback (total : result) (shape : any) : result :=
  match instanceof_Square shape with
  | Some shape => Num (plus total (JS.mul (width shape) (width shape)))
  | None =>
      match instanceof_Circle shape with
      | Some shape =>
          Num (plus total
                 (JS.mul (JS.mul JS.PI (radius shape)) (radius shape)))
      | None => total
      end
  end.

Record AreaCalculator := { shapes : list any }.

Definition sum (this : AreaCalculator) : result :=
  Array_reduce callback (Num (JS.lit 0)) (shapes this).

End OcpViolationReadme.

(** * Vocabulary of the statements *)

(** The shapes of the snippets whose dimensions are positive finite
    doubles. *)
Inductive positive_dimensions : shape JS.number -> Prop :=
| pd_square (w : JS.number) :
    JS.positive_finite w = true ->
    positive_dimensions (Obj (OcpCompliant.Build_Square w))
| pd_circle (r : JS.number) :
    JS.positive_finite r = true ->
    positive_dimensions (Obj (OcpCompliant.Build_Circle r))
| pd_triangle (b h : JS.number) :
    JS.positive_finite b = true -> JS.positive_finite h = true ->
    positive_dimensions (Obj (OcpCompliant.Build_Triangle b h))
| pd_srp_circle (r : JS.number) :
    JS.positive_finite r = true ->
    positive_dimensions (Obj (SrpCompliant.Build_Circle r))
| pd_srp_square (w : JS.number) :
    JS.positive_finite w = true ->
    positive_dimensions (Obj (SrpCompliant.Build_Square w)).

(** The square of side [1e200]: a positive finite dimension whose area
    overflows. *)
Definition huge_square : shape JS.number :=
  Obj (OcpCompliant.Build_Square (JS.F_of_decimal 1 200)).

(** Three triangles with positive finite dimensions: one of area
    [Number.MAX_VALUE] and two of area [2^969], a quarter of the gap
    between the last two doubles. *)
Definition big_triangle : shape JS.number :=
  Obj (OcpCompliant.Build_Triangle (JS.lit 2) JS.MAX_VALUE).
Definition small_triangle : shape JS.number :=
  Obj (OcpCompliant.Build_Triangle (JS.lit (2 ^ 485)) (JS.lit (2 ^ 485))).

Definition big_first : list (shape JS.number) :=
  [big_triangle; small_triangle; small_triangle].
Definition big_last : list (shape JS.number) :=
  [small_triangle; small_triangle; big_triangle].

(** The outputter over a list of shapes. *)
Definition outputter_of (l : list (shape JS.number)) : SrpCompliant.Outputter :=
  SrpCompliant.Build_Outputter (SrpCompliant.Build_AreaCalculator l).

(** The compliant shape with the dimension of a data-only one. *)
Definition to_compliant {N} `{Number N} (x : SrpViolation.CircleOrSquare N)
  : shape N :=
  match x with
  | SrpViolation.IsCircle c =>
      Obj (SrpCompliant.Build_Circle (SrpViolation.radius c))
  | SrpViolation.IsSquare s =>
      Obj (SrpCompliant.Build_Square (SrpViolation.length s))
  end.

(** An element the OCP-violating callback has a branch for. *)
Definition recognized (x : OcpViolation.any) : bool :=
  match OcpViolation.instanceof_Square x, OcpViolation.instanceof_Circle x with
  | None, None => false
  | _, _ => true
  end.

(** The compliant shapes of the recognized elements, in order. *)
Fixpoint recognized_shapes (l : list OcpViolation.any)
  : list (shape JS.number) :=
  match l with
  | [] => []
  | OcpViolation.OfSquare s :: rest =>
      Obj (OcpCompliant.Build_Square (OcpViolation.width s))
      :: recognized_shapes rest
  | OcpViolation.OfCircle c :: rest =>
      Obj (OcpCompliant.Build_Circle (OcpViolation.radius c))
      :: recognized_shapes rest
  | OcpViolation.Other _ :: rest => recognized_shapes rest
  end.

(** The accumulator once an unrecognized element has been met. *)
Definition poisoned (r : OcpViolation.result) : Prop :=
  r = OcpViolation.Undefined \/ r = OcpViolation.Num JS.NaN.

(** A triangle passed to the OCP-violating calculator as a plain
    object. *)
Definition a_triangle : OcpViolation.any :=
  OcpViolation.Other
    (VObject [("base"%string, VNumber (JS.lit 10));
              ("height"%string, VNumber (JS.lit 5))]).

(** Unary minus on numbers. *)
Definition negate (x : JS.number) : JS.number := SFopp x.

(** The squares and circles of the two compliant snippets, whatever their
    dimension. *)
Inductive square_or_circle : shape JS.number -> Prop :=
| sc_square (w : JS.number) :
    square_or_circle (Obj (OcpCompliant.Build_Square w))
| sc_circle (r : JS.number) :
    square_or_circle (Obj (OcpCompliant.Build_Circle r))
| sc_srp_circle (r : JS.number) :
    square_or_circle (Obj (SrpCompliant.Build_Circle r))
| sc_srp_square (w : JS.number) :
    square_or_circle (Obj (SrpCompliant.Build_Square w)).


(** A circle or square of the SRP-violating snippet as an element of the
    OCP-violating calculator's [any[]], and as a shape of the
    OCP-compliant snippet. *)
Definition to_any (x : SrpViolation.CircleOrSquare JS.number)
  : OcpViolation.any :=
  match x with
  | SrpViolation.IsCircle c =>
      OcpViolation.OfCircle
        (OcpViolation.Build_Circle (SrpViolation.radius c))
  | SrpViolation.IsSquare s =>
      OcpViolation.OfSquare
        (OcpViolation.Build_Square (SrpViolation.length s))
  end.

Definition to_ocp_compliant (x : SrpViolation.CircleOrSquare JS.number)
  : shape JS.number :=
  match x with
  | SrpViolation.IsCircle c =>
      Obj (OcpCompliant.Build_Circle (SrpViolation.radius c))
  | SrpViolation.IsSquare s =>
      Obj (OcpCompliant.Build_Square (SrpViolation.length s))
  end.

(** * Properties *)

(** ** Folding from the left *)

Section Reduce.
Context {A B : Type} (callback : B -> A -> B).

Lemma Array_reduce_snoc (acc : B) (arr : list A) (x : A) :
  Array_reduce callback acc (arr ++ [x]) =
  callback (Array_reduce callback acc arr) x.
Proof.
  revert acc; induction arr as [|y arr IH]; intros acc; simpl.
  - reflexivity.
  - apply IH.
Qed.

Lemma Array_reduce_app (acc : B) (arr1 arr2 : list A) :
  Array_reduce callback acc (arr1 ++ arr2) =
  Array_reduce callback (Array_reduce callback acc arr1) arr2.
Proof.
  revert acc; induction arr1 as [|y arr1 IH]; intros acc; simpl.
  - reflexivity.
  - apply IH.
Qed.
End Reduce.

(** The two compliant snippets declare the same calculator. *)
Lemma compliant_sums_agree {N} `{Number N} (l : list (shape N)) :
  SrpCompliant.sum (SrpCompliant.Build_AreaCalculator l) =
  OcpCompliant.sum (OcpCompliant.Build_AreaCalculator l).
Proof. reflexivity. Qed.

(** ** The sum, element by element *)

(** C1: [AreaCalculator.sum] is the sum of [area()] over the elements in
    iteration order: it is [0] on no shapes, and one more shape at the end
    adds that shape's area to the sum of the shapes before it; on three
    shapes this is [((0 + a) + b) + c].  This holds for both compliant
    calculators and for every implementation of [Shape], over the doubles
    and over the reals.  In the embedding [sum] is a function of the
    calculator's [shapes] alone: there is no state it could change. *)
Theorem sum_adds_areas_in_order :
  forall (N : Type) (HN : Number N),
    OcpCompliant.sum (OcpCompliant.Build_AreaCalculator []) = num_lit 0 /\
    (forall (l : list (shape N)) (s : shape N),
        OcpCompliant.sum (OcpCompliant.Build_AreaCalculator (l ++ [s])) =
        (OcpCompliant.sum (OcpCompliant.Build_AreaCalculator l)
         + area_of s)%num) /\
    SrpCompliant.sum (SrpCompliant.Build_AreaCalculator []) = num_lit 0 /\
    (forall (l : list (shape N)) (s : shape N),
        SrpCompliant.sum (SrpCompliant.Build_AreaCalculator (l ++ [s])) =
        (SrpCompliant.sum (SrpCompliant.Build_AreaCalculator l)
         + area_of s)%num) /\
    (forall a b c : shape N,
        OcpCompliant.sum (OcpCompliant.Build_AreaCalculator [a; b; c]) =
        (((num_lit 0 + area_of a) + area_of b) + area_of c)%num).
Proof.
  intros N HN.
  split; [reflexivity|].
  split; [intros l s; unfold OcpCompliant.sum; simpl;
          rewrite Array_reduce_snoc; reflexivity|].
  split; [reflexivity|].
  split; [intros l s; unfold SrpCompliant.sum; simpl;
          rewrite Array_reduce_snoc; reflexivity|].
  reflexivity.
Qed.

(** ** Areas *)

(** Over the reals the three formulas are the closed forms, whatever the
    order of the multiplications. *)
Lemma real_areas (w r b h : R) :
  area (OcpCompliant.Build_Square w) = (w ^ 2)%R /\
  area (OcpCompliant.Build_Circle r) = (Rtrigo1.PI * r ^ 2)%R /\
  area (OcpCompliant.Build_Triangle b h) = (b * h / 2)%R.
Proof.
  simpl; repeat split; field.
Qed.

(** C2: the area of a square of side [w] is [w * w], of a circle of
    radius [r] is [Math.PI * r * r] (multiplied from the left), and of a
    triangle of base [b] and height [h] is [0.5 * b * h] (multiplied from
    the left); the SRP-compliant [Circle] and [Square] use the same
    formulas. *)
Theorem area_closed_forms :
  forall (N : Type) (HN : Number N) (w r b h : N),
    area (OcpCompliant.Build_Square w) = (w * w)%num /\
    area (OcpCompliant.Build_Circle r) = ((Math_PI * r) * r)%num /\
    area (OcpCompliant.Build_Triangle b h) = ((num_half * b) * h)%num /\
    area (SrpCompliant.Build_Circle r) = ((Math_PI * r) * r)%num /\
    area (SrpCompliant.Build_Square w) = (w * w)%num /\
    area_of (Obj (OcpCompliant.Build_Square w)) = (w * w)%num /\
    area_of (Obj (OcpCompliant.Build_Circle r)) =
      ((Math_PI * r) * r)%num /\
    area_of (Obj (OcpCompliant.Build_Triangle b h)) =
      ((num_half * b) * h)%num.
Proof.
  intros; repeat split.
Qed.

(** ** No shapes *)

(** C3: on the empty sequence every calculator returns [0]: the two
    compliant ones and the SRP-violating one over any numbers, the
    OCP-violating one the number [+0] of the runtime. *)
Theorem sum_of_no_shapes :
  (forall (N : Type) (HN : Number N),
      OcpCompliant.sum (OcpCompliant.Build_AreaCalculator []) = num_lit 0 /\
      SrpCompliant.sum (SrpCompliant.Build_AreaCalculator []) = num_lit 0 /\
      SrpViolation.sum (SrpViolation.Build_AreaCalculator []) = num_lit 0) /\
  OcpCompliant.sum (OcpCompliant.Build_AreaCalculator []) = JS.pos_zero /\
  OcpViolation.sum (OcpViolation.Build_AreaCalculator []) =
    OcpViolation.Num JS.pos_zero.
Proof.
  repeat split.
Qed.

(** Scenario 3 of the specification: the text for no shapes. *)
Example toText_of_no_shapes :
  SrpCompliant.toText
    (SrpCompliant.Build_Outputter (SrpCompliant.Build_AreaCalculator [])) =
  "Sum of the areas of provided shapes: 0"%string.
Proof. reflexivity. Qed.

(** ** Signs of rounded results *)

Module JSFacts.

Lemma nonneg_has_sign (x : JS.number) :
  JS.nonneg x = true <-> JS.has_sign false x.
Proof.
  destruct x as [[]|[]| |[] m e]; simpl; split; intros H;
    try reflexivity; try discriminate; try contradiction.
Qed.

Lemma iter_pos_invariant {A : Type} (P : A -> Prop) (f : A -> A) :
  (forall a, P a -> P (f a)) ->
  forall (n : positive) (a : A), P a -> P (SpecFloat.iter_pos f n a).
Proof.
  intros Hf; induction n as [n IH|n IH|]; intros a Ha; simpl.
  - apply IH, IH, Hf, Ha.
  - apply IH, IH, Ha.
  - apply Hf, Ha.
Qed.

Lemma shr_1_nonneg (mrs : shr_record) :
  0 <= shr_m mrs -> 0 <= shr_m (shr_1 mrs).
Proof.
  destruct mrs as [m r s]; simpl.
  destruct m as [|[p|p|]|[p|p|]]; simpl; intros Hm; lia.
Qed.

Lemma shr_fexp_nonneg (m e : Z) (l : location) :
  0 <= m -> 0 <= shr_m (fst (shr_fexp JS.prec JS.emax m e l)).
Proof.
  intros Hm; unfold shr_fexp, shr.
  assert (H0 : 0 <= shr_m (shr_record_of_loc m l))
    by (destruct l as [|[]]; exact Hm).
  destruct (fexp JS.prec JS.emax (Zdigits2 m + e) - e) as [|p|p]; simpl;
    try exact H0.
  apply (iter_pos_invariant (fun mrs => 0 <= shr_m mrs)); auto.
  apply shr_1_nonneg.
Qed.

Lemma round_nearest_even_nonneg (m : Z) (l : location) :
  0 <= m -> 0 <= round_nearest_even m l.
Proof.
  intros Hm; destruct l as [|[]]; simpl; try lia.
  destruct (Z.even m); lia.
Qed.

(** Rounding a non-negative mantissa keeps the sign it is given and
    never produces NaN. *)
Lemma binary_round_aux_sign (sx : bool) (mx ex : Z) (lx : location) :
  0 <= mx ->
  JS.has_sign sx (binary_round_aux JS.prec JS.emax sx mx ex lx).
Proof.
  intros Hm; unfold binary_round_aux.
  pose proof (shr_fexp_nonneg mx ex lx Hm) as H1.
  destruct (shr_fexp JS.prec JS.emax mx ex lx) as [mrs' e'].
  simpl in H1.
  pose proof (shr_fexp_nonneg
                (round_nearest_even (shr_m mrs') (loc_of_shr_record mrs'))
                e' loc_Exact
                (round_nearest_even_nonneg _ _ H1)) as H2.
  destruct (shr_fexp JS.prec JS.emax _ e' loc_Exact) as [mrs'' e''].
  simpl in H2.
  destruct (shr_m mrs'') as [|p|p].
  - reflexivity.
  - destruct (e'' <=? JS.emax - JS.prec); reflexivity.
  - lia.
Qed.

Lemma binary_round_sign (sx : bool) (mx : positive) (ex : Z) :
  JS.has_sign sx (binary_round JS.prec JS.emax sx mx ex).
Proof.
  unfold binary_round.
  destruct (shl_align mx ex _) as [mz ez].
  apply binary_round_aux_sign; lia.
Qed.

(** NaN is absorbing for [+]. *)
Lemma add_NaN_l (y : JS.number) : JS.add JS.NaN y = JS.NaN.
Proof. reflexivity. Qed.

Lemma add_nonneg (x y : JS.number) :
  JS.nonneg x = true -> JS.nonneg y = true -> JS.nonneg (JS.add x y) = true.
Proof.
  destruct x as [[]|[]| |[] mx ex]; try discriminate;
    destruct y as [[]|[]| |[] my ey]; try discriminate;
    intros _ _; try reflexivity.
  apply nonneg_has_sign.
  unfold JS.add, SFadd, cond_Zopp.
  destruct (fst (shl_align mx ex (Z.min ex ey)) + 
            fst (shl_align my ey (Z.min ex ey)))%positive eqn:E.
  all: simpl; rewrite ?E; try apply binary_round_sign.
Qed.

(** A non-negative number times a positive finite one is non-negative
    (and not NaN: the right factor is neither zero nor infinite). *)
Lemma mul_nonneg_positive (x y : JS.number) :
  JS.nonneg x = true -> JS.positive_finite y = true ->
  JS.nonneg (JS.mul x y) = true.
Proof.
  destruct x as [[]|[]| |[] mx ex]; try discriminate;
    destruct y as [[]|[]| |[] my ey]; try discriminate;
    intros _ _; try reflexivity.
  apply nonneg_has_sign.
  unfold JS.mul, SFmul; simpl xorb.
  apply binary_round_aux_sign; lia.
Qed.

Lemma positive_finite_nonneg (x : JS.number) :
  JS.positive_finite x = true -> JS.nonneg x = true.
Proof.
  destruct x as [[]|[]| |[] mx ex]; try discriminate; reflexivity.
Qed.

End JSFacts.

(** ** Non-negative areas and sums *)

Lemma positive_dimensions_area (s : shape JS.number) :
  positive_dimensions s -> JS.nonneg (area_of s) = true.
Proof.
  assert (Hpi : JS.nonneg JS.PI = true) by reflexivity.
  assert (Hhalf : JS.nonneg JS.half = true) by reflexivity.
  intros Hs; destruct Hs as [w Hw|r Hr|b h Hb Hh|r Hr|w Hw].
  - change (JS.nonneg (JS.mul w w) = true).
    auto using JSFacts.mul_nonneg_positive, JSFacts.positive_finite_nonneg.
  - change (JS.nonneg (JS.mul (JS.mul JS.PI r) r) = true).
    auto using JSFacts.mul_nonneg_positive.
  - change (JS.nonneg (JS.mul (JS.mul JS.half b) h) = true).
    auto using JSFacts.mul_nonneg_positive.
  - change (JS.nonneg (JS.mul (JS.mul JS.PI r) r) = true).
    auto using JSFacts.mul_nonneg_positive.
  - change (JS.nonneg (JS.mul w w) = true).
    auto using JSFacts.mul_nonneg_positive, JSFacts.positive_finite_nonneg.
Qed.

Lemma reduce_nonneg (l : list (shape JS.number)) :
  Forall positive_dimensions l ->
  forall acc : JS.number,
    JS.nonneg acc = true ->
    JS.nonneg
      (Array_reduce (fun acc shape => (acc + area_of shape)%num) acc l) = true.
Proof.
  induction 1 as [|s l Hs Hl IH]; intros acc Hacc; simpl.
  - exact Hacc.
  - apply IH.
    change (JS.nonneg (JS.add acc (area_of s)) = true).
    apply JSFacts.add_nonneg; auto using positive_dimensions_area.
Qed.

(** C7, as stated, fails: the square of side [1e200] has a positive
    finite dimension, its area is [Infinity], and so is the sum of the
    collection that holds only it. *)
Lemma area_can_overflow :
  positive_dimensions huge_square /\
  area_of huge_square = JS.Infinity /\
  JS.is_finite (area_of huge_square) = false /\
  JS.is_finite
    (OcpCompliant.sum (OcpCompliant.Build_AreaCalculator [huge_square])) =
  false /\
  ~ (forall s : shape JS.number,
        positive_dimensions s -> JS.is_finite (area_of s) = true).
Proof.
  assert (Hpd : positive_dimensions huge_square)
    by (apply pd_square; vm_compute; reflexivity).
  assert (Harea : area_of huge_square = JS.Infinity)
    by (vm_compute; reflexivity).
  split; [exact Hpd|].
  split; [exact Harea|].
  split; [rewrite Harea; reflexivity|].
  split; [vm_compute; reflexivity|].
  intros Hall. specialize (Hall huge_square Hpd).
  rewrite Harea in Hall. discriminate Hall.
Qed.

(** C7, amended: for shapes with positive finite dimensions every area is
    a number that is not NaN and not negative ([+0], a positive finite
    double, or [+Infinity] when the product overflows), and so is the sum
    of both compliant calculators. *)
Theorem areas_and_sum_nonneg (l : list (shape JS.number))
  (Hl : Forall positive_dimensions l) :
  Forall (fun s => JS.nonneg (area_of s) = true) l /\
  JS.nonneg (OcpCompliant.sum (OcpCompliant.Build_AreaCalculator l)) = true /\
  JS.nonneg (SrpCompliant.sum (SrpCompliant.Build_AreaCalculator l)) = true.
Proof.
  split; [|split].
  - eapply Forall_impl; [|exact Hl].
    intros s; apply positive_dimensions_area.
  - apply reduce_nonneg; [exact Hl|reflexivity].
  - apply reduce_nonneg; [exact Hl|reflexivity].
Qed.

Lemma areas_and_sum_nonneg_witness :
  Forall positive_dimensions (@OcpCompliant.demo_shapes JS.number _) /\
  JS.nonneg
    (OcpCompliant.sum
       (OcpCompliant.Build_AreaCalculator OcpCompliant.demo_shapes)) = true.
Proof.
  assert (H : Forall positive_dimensions
                (@OcpCompliant.demo_shapes JS.number _)).
  { repeat constructor. }
  split; [exact H|].
  exact (proj1 (proj2 (areas_and_sum_nonneg _ H))).
Defined.

(** ** Reordering the shapes *)

Lemma real_reduce_shift (l : list (shape R)) (acc : R) :
  Array_reduce (fun acc shape => (acc + area_of shape)%num) acc l =
  (acc + Array_reduce (fun acc shape => (acc + area_of shape)%num) 0 l)%R.
Proof.
  revert acc; induction l as [|s l IH]; intros acc; cbn [Array_reduce].
  - ring.
  - rewrite IH. rewrite (IH (0%R + area_of s)%num).
    cbn [num_add R_Number]. ring.
Qed.

(** C4, as stated, fails on the doubles: [big_last] is a permutation of
    [big_first], all dimensions are positive and finite, and the sum is
    [Number.MAX_VALUE] in one order and [Infinity] in the other, so no
    tolerance makes the two results close. *)
Lemma sum_depends_on_order :
  Permutation big_first big_last /\
  Forall positive_dimensions big_first /\
  OcpCompliant.sum (OcpCompliant.Build_AreaCalculator big_first) =
    JS.MAX_VALUE /\
  OcpCompliant.sum (OcpCompliant.Build_AreaCalculator big_last) =
    JS.Infinity /\
  ~ (exists tol : Q,
        forall l l' : list (shape JS.number),
          Permutation l l' ->
          JS.close_to tol
            (OcpCompliant.sum (OcpCompliant.Build_AreaCalculator l))
            (OcpCompliant.sum (OcpCompliant.Build_AreaCalculator l')) =
          true).
Proof.
  assert (Hperm : Permutation big_first big_last).
  { unfold big_first, big_last.
    apply (Permutation_app_comm [big_triangle]
             [small_triangle; small_triangle]). }
  assert (H1 : OcpCompliant.sum (OcpCompliant.Build_AreaCalculator big_first)
               = JS.MAX_VALUE) by (vm_compute; reflexivity).
  assert (H2 : OcpCompliant.sum (OcpCompliant.Build_AreaCalculator big_last)
               = JS.Infinity) by (vm_compute; reflexivity).
  split; [exact Hperm|].
  split; [repeat constructor|].
  split; [exact H1|].
  split; [exact H2|].
  intros [tol Htol]. specialize (Htol _ _ Hperm).
  rewrite H1, H2 in Htol. discriminate Htol.
Qed.

(** Without any overflow, and with a negative height (which the classes
    accept): the areas [1e16], [-1e16] and [1] sum to [1] in one order
    and to [0] in another. *)
Example sum_cancellation_depends_on_order :
  let up := Obj (OcpCompliant.Build_Triangle (JS.lit 2) (JS.lit (10 ^ 16))) in
  let down :=
    Obj (OcpCompliant.Build_Triangle (JS.lit 2) (JS.lit (- 10 ^ 16))) in
  let unit := Obj (OcpCompliant.Build_Square (JS.lit 1)) in
  OcpCompliant.sum (OcpCompliant.Build_AreaCalculator [up; down; unit]) =
    JS.lit 1 /\
  OcpCompliant.sum (OcpCompliant.Build_AreaCalculator [up; unit; down]) =
    JS.lit 0 /\
  JS.close_to (1 # 2) (JS.lit 1) (JS.lit 0) = false.
Proof. repeat split; vm_compute; reflexivity. Qed.

(** C4, amended: over exact real arithmetic the sum of a permutation of
    the shapes is the sum of the shapes. *)
Theorem sum_permutation_exact (l l' : list (shape R))
  (Hperm : Permutation l l') :
  OcpCompliant.sum (OcpCompliant.Build_AreaCalculator l) =
  OcpCompliant.sum (OcpCompliant.Build_AreaCalculator l').
Proof.
  unfold OcpCompliant.sum.
  cbn [OcpCompliant.shapes].
  generalize (@num_lit R _ 0); intros z.
  induction Hperm as [|x l l' Hperm IH|x y l|l l' l'' H1 IH1 H2 IH2];
    cbn [Array_reduce].
  - reflexivity.
  - rewrite real_reduce_shift, (real_reduce_shift l').
    rewrite (real_reduce_shift l z), (real_reduce_shift l' z) in IH.
    cbn [num_add R_Number] in *. lra.
  - rewrite real_reduce_shift.
    rewrite (real_reduce_shift l ((z + area_of x) + area_of y)%num).
    cbn [num_add R_Number]. ring.
  - rewrite IH1. exact IH2.
Qed.

Lemma sum_permutation_exact_witness :
  Permutation (@OcpCompliant.demo_shapes R _)
              (rev (@OcpCompliant.demo_shapes R _)) /\
  OcpCompliant.sum (OcpCompliant.Build_AreaCalculator OcpCompliant.demo_shapes)
  = OcpCompliant.sum
      (OcpCompliant.Build_AreaCalculator
         (rev (@OcpCompliant.demo_shapes R _))).
Proof.
  assert (H : Permutation (@OcpCompliant.demo_shapes R _)
                          (rev (@OcpCompliant.demo_shapes R _)))
    by apply Permutation_rev.
  split; [exact H|].
  exact (sum_permutation_exact _ _ H).
Defined.

(** ** The two outputs *)

Lemma template_prefix_number (prefix : string) (x : JS.number) :
  template_literal [Chunk prefix; Subst x] =
  (prefix ++ JS.Number_toString x)%string.
Proof.
  cbn [template_literal].
  induction prefix as [|c prefix IH]; cbn [append].
  - induction (JS.Number_toString x) as [|c t IH]; cbn [append].
    + reflexivity.
    + rewrite IH. reflexivity.
  - rewrite IH. reflexivity.
Qed.

(** C6: [toText] is the fixed text followed by the decimal string of the
    sum (Number::toString), and nothing else; the SRP-violating [output]
    builds the same string from its own sum. *)
Theorem toText_is_prefix_then_sum :
  (forall o : SrpCompliant.Outputter,
      SrpCompliant.toText o =
      ("Sum of the areas of provided shapes: " ++
       JS.Number_toString (SrpCompliant.sum (SrpCompliant.areaCalculator o)))
        %string) /\
  (forall c : SrpViolation.AreaCalculator JS.number,
      SrpViolation.output c =
      ("Sum of the areas of provided shapes: " ++
       JS.Number_toString (SrpViolation.sum c))%string).
Proof.
  split; intros; apply template_prefix_number.
Qed.

(** C5, as stated, fails: for the square of side [1e200] the sum is
    [Infinity], and [toJson] returns the text of the record whose
    [totalArea] is [null], not a number. *)
Lemma toJson_of_overflow_is_null :
  SrpCompliant.sum (SrpCompliant.Build_AreaCalculator [huge_square]) =
    JS.Infinity /\
  SrpCompliant.toJson (outputter_of [huge_square]) =
    Some ("{" ++ JSON.quote "totalArea" ++ ":null}")%string /\
  SrpCompliant.toJson (outputter_of [huge_square]) =
    Some (JSON.render (JSON.JObj [("totalArea"%string, JSON.JNull)])) /\
  SrpCompliant.toJson (outputter_of [huge_square]) <>
    Some (JSON.render
            (JSON.JObj [("totalArea"%string, JSON.JNum JS.Infinity)])).
Proof.
  repeat split; try (vm_compute; reflexivity).
  vm_compute. discriminate.
Qed.

(** C5, amended: [toJson] returns the JSON text of a record with exactly
    one key, [totalArea]; its value is the sum as a JSON number when the
    sum is finite, and [null] when the sum is NaN or an infinity. *)
Theorem toJson_is_totalArea_record :
  forall o : SrpCompliant.Outputter,
    let total := SrpCompliant.sum (SrpCompliant.areaCalculator o) in
    let value :=
      if JS.is_finite total then JSON.JNum total else JSON.JNull in
    JSON.of_value (VObject [("totalArea"%string, VNumber total)]) =
      Some (JSON.JObj [("totalArea"%string, value)]) /\
    SrpCompliant.toJson o =
      Some (JSON.render (JSON.JObj [("totalArea"%string, value)])) /\
    SrpCompliant.toJson o =
      Some ("{" ++ JSON.quote "totalArea" ++ ":" ++
            (if JS.is_finite total then JS.Number_toString total
             else "null") ++ "}")%string.
Proof.
  intros o total value.
  split; [reflexivity|].
  split; [reflexivity|].
  unfold SrpCompliant.toJson, JSON.stringify.
  fold total.
  cbn [JSON.of_value option_map JSON.render].
  destruct (JS.is_finite total); reflexivity.
Qed.

(** ** The SRP-violating calculator against the compliant one *)

Lemma loop_body_adds_area {N} `{Number N}
  (x : SrpViolation.CircleOrSquare N) (acc : N) :
  SrpViolation.loop_body x acc = (acc + area_of (to_compliant x))%num.
Proof.
  destruct x; reflexivity.
Qed.

Lemma for_loop_is_reduce {N} `{Number N}
  (l : list (SrpViolation.CircleOrSquare N)) (acc : N) :
  for_of l SrpViolation.loop_body acc =
  Array_reduce (fun acc shape => (acc + area_of shape)%num) acc
    (map to_compliant l).
Proof.
  revert acc; induction l as [|x l IH]; intros acc; cbn [for_of map Array_reduce].
  - reflexivity.
  - rewrite loop_body_adds_area. apply IH.
Qed.

(** C9: on every list of circles and squares the [instanceof] loop of the
    SRP-violating calculator returns what the compliant calculator's
    [reduce] returns on the shapes of the same dimensions, over any
    numbers; and the violating [output] is the compliant [toText]. *)
Theorem srp_variants_agree :
  (forall (N : Type) (HN : Number N)
          (l : list (SrpViolation.CircleOrSquare N)),
      SrpViolation.sum (SrpViolation.Build_AreaCalculator l) =
      SrpCompliant.sum
        (SrpCompliant.Build_AreaCalculator (map to_compliant l))) /\
  (forall l : list (SrpViolation.CircleOrSquare JS.number),
      SrpViolation.output (SrpViolation.Build_AreaCalculator l) =
      SrpCompliant.toText (outputter_of (map to_compliant l))).
Proof.
  split.
  - intros N HN l. apply for_loop_is_reduce.
  - intros l.
    unfold SrpViolation.output, SrpCompliant.toText, outputter_of.
    cbn [SrpCompliant.areaCalculator].
    unfold SrpViolation.sum, SrpCompliant.sum.
    cbn [SrpViolation.shapes SrpCompliant.shapes].
    rewrite for_loop_is_reduce. reflexivity.
Qed.

(** ** The OCP-violating calculator *)

Module OcpViolationFacts.
Import OcpViolation.

Lemma callback_poisoned (acc : result) (x : any) :
  poisoned acc -> poisoned (callback acc x).
Proof.
  intros [-> | ->]; destruct x as [s|c|v];
    cbn [callback instanceof_Square instanceof_Circle];
    try (left; reflexivity); right; reflexivity.
Qed.

Lemma reduce_poisoned (l : list any) (acc : result) :
  poisoned acc -> poisoned (Array_reduce callback acc l).
Proof.
  revert acc; induction l as [|x l IH]; intros acc Hacc;
    cbn [Array_reduce].
  - exact Hacc.
  - apply IH, callback_poisoned, Hacc.
Qed.

Lemma reduce_unrecognized (l : list any) :
  Exists (fun x => recognized x = false) l ->
  forall acc : result, poisoned (Array_reduce callback acc l).
Proof.
  induction 1 as [x l Hx|x l Hl IH]; intros acc; cbn [Array_reduce].
  - destruct x as [s|c|v]; try discriminate Hx.
    apply reduce_poisoned. left; reflexivity.
  - apply IH.
Qed.

Lemma reduce_recognized (l : list any) :
  Forall (fun x => recognized x = true) l ->
  forall acc : JS.number,
    Array_reduce callback (Num acc) l =
    Num (Array_reduce (fun acc shape => (acc + area_of shape)%num) acc
           (recognized_shapes l)).
Proof.
  induction 1 as [|x l Hx Hl IH]; intros acc.
  - reflexivity.
  - destruct x as [s|c|v]; try discriminate Hx;
      cbn [Array_reduce recognized_shapes callback
           instanceof_Square instanceof_Circle];
      rewrite IH; reflexivity.
Qed.

End OcpViolationFacts.

(** C10: in the OCP-violating calculator the callback returns
    [undefined] on an element that is neither a [Square] nor a [Circle],
    so the sum of a list that ends with such an element is [undefined];
    the sum of any list that contains one is [undefined] or NaN, and so
    differs from the sum of the recognized shapes' areas whenever that sum
    is a number; when every element is a [Square] or a [Circle] the result
    is the sum of their areas. *)
Theorem ocp_violation_sum_needs_known_shapes :
  (forall (acc : OcpViolation.result) (v : js_value),
      OcpViolation.callback acc (OcpViolation.Other v) =
      OcpViolation.Undefined) /\
  (forall (l : list OcpViolation.any) (v : js_value),
      OcpViolation.sum
        (OcpViolation.Build_AreaCalculator (l ++ [OcpViolation.Other v])) =
      OcpViolation.Undefined) /\
  (forall l : list OcpViolation.any,
      Exists (fun x => recognized x = false) l ->
      (OcpViolation.sum (OcpViolation.Build_AreaCalculator l) =
         OcpViolation.Undefined \/
       OcpViolation.sum (OcpViolation.Build_AreaCalculator l) =
         OcpViolation.Num JS.NaN) /\
      (JS.is_nan
         (OcpCompliant.sum
            (OcpCompliant.Build_AreaCalculator
               (recognized_shapes l))) = false ->
       OcpViolation.sum (OcpViolation.Build_AreaCalculator l) <>
       OcpViolation.Num
         (OcpCompliant.sum
            (OcpCompliant.Build_AreaCalculator
               (recognized_shapes l))))) /\
  (forall l : list OcpViolation.any,
      Forall (fun x => recognized x = true) l ->
      OcpViolation.sum (OcpViolation.Build_AreaCalculator l) =
      OcpViolation.Num
        (OcpCompliant.sum
           (OcpCompliant.Build_AreaCalculator
              (recognized_shapes l)))).
Proof.
  split; [reflexivity|].
  split.
  { intros l v. unfold OcpViolation.sum. cbn [OcpViolation.shapes].
    rewrite Array_reduce_snoc. reflexivity. }
  split.
  { intros l Hl.
    pose proof (OcpViolationFacts.reduce_unrecognized l Hl
                  (OcpViolation.Num (JS.lit 0))) as Hp.
    change (poisoned
              (OcpViolation.sum (OcpViolation.Build_AreaCalculator l))) in Hp.
    split; [exact Hp|].
    intros Hnan Heq. destruct Hp as [Hp|Hp]; rewrite Hp in Heq.
    - discriminate Heq.
    - injection Heq as Heq. rewrite <- Heq in Hnan. discriminate Hnan. }
  intros l Hl. apply (OcpViolationFacts.reduce_recognized l Hl).
Qed.

Lemma ocp_violation_sum_needs_known_shapes_witness :
  let sq := OcpViolation.OfSquare (OcpViolation.Build_Square (JS.lit 10)) in
  let ci := OcpViolation.OfCircle (OcpViolation.Build_Circle (JS.lit 5)) in
  (Exists (fun x => recognized x = false)
          [sq; a_triangle; ci] /\
   OcpViolation.sum (OcpViolation.Build_AreaCalculator [sq; a_triangle; ci])
   = OcpViolation.Num JS.NaN) /\
  OcpViolation.sum (OcpViolation.Build_AreaCalculator [sq; ci; a_triangle])
  = OcpViolation.Undefined /\
  (Forall (fun x => recognized x = true) [sq; ci] /\
   OcpViolation.sum (OcpViolation.Build_AreaCalculator [sq; ci]) =
   OcpViolation.Num
     (OcpCompliant.sum
        (OcpCompliant.Build_AreaCalculator
           [Obj (OcpCompliant.Build_Square (JS.lit 10));
            Obj (OcpCompliant.Build_Circle (JS.lit 5))]))).
Proof.
  intros sq ci.
  destruct ocp_violation_sum_needs_known_shapes as (_ & Hlast & Hex & Hall).
  assert (E : Exists (fun x => recognized x = false)
                [sq; a_triangle; ci])
    by (apply Exists_cons_tl, Exists_cons_hd; reflexivity).
  assert (F : Forall (fun x => recognized x = true)
                [sq; ci])
    by (repeat constructor).
  split; [split; [exact E|]|split; [|split; [exact F|]]].
  - destruct (proj1 (Hex _ E)) as [H|H]; [|exact H].
    vm_compute in H. discriminate H.
  - exact (Hlast [sq; ci] _).
  - exact (Hall _ F).
Defined.

(** ** [Math.PI] and the second scenario *)

(** Eighteen decimals of the real number [PI]. *)
Lemma PI_digits :
  (3141592653589793238 / 1000000000000000000 < PI <
   3141592653589793239 / 1000000000000000000)%R.
Proof.
  pose proof (PI_2_3_7_ineq 10) as [Hlo Hhi].
  unfold PI_2_3_7_tg, tg_alt, Ratan_seq in Hlo, Hhi.
  simpl in Hlo, Hhi.
  split; lra.
Qed.

(** [Math.PI] is a double nearest to [PI]: it is less than half the gap
    between neighbouring doubles, [2^-52], away from it. *)
Lemma Math_PI_is_nearest :
  (Rabs (JS.to_R JS.PI - PI) < / IZR (2 ^ 52))%R.
Proof.
  pose proof PI_digits as [Hlo Hhi].
  unfold JS.to_R, JS.PI, cond_Zopp.
  change (0 <=? -51) with false; cbv iota.
  change (2 ^ (- -51)) with 2251799813685248.
  change (2 ^ 52) with 4503599627370496.
  apply Rabs_def1; lra.
Qed.

(** C8: for [Circle(2), Square(3), Circle(4)] the sum over the reals is
    [4 PI + 9 + 16 PI = 20 PI + 9]; the sum the program computes is the
    double [5054717292616751 * 2^-46], printed [71.83185307179586], which
    is within [2^-47] (half the gap between neighbouring doubles) of
    [20 PI + 9] and within [0.0001] of [71.8319]; and [toJson] returns the
    text of the record whose only key [totalArea] holds that number. *)
Theorem second_scenario :
  let total :=
    SrpCompliant.sum
      (SrpCompliant.Build_AreaCalculator
         (@SrpCompliant.demo_shapes JS.number _)) in
  let exact :=
    SrpCompliant.sum
      (SrpCompliant.Build_AreaCalculator (@SrpCompliant.demo_shapes R _)) in
  exact = (4 * PI + 9 + 16 * PI)%R /\
  exact = (20 * PI + 9)%R /\
  total = S754_finite false 5054717292616751 (-46) /\
  (Rabs (JS.to_R total - (20 * PI + 9)) < / IZR (2 ^ 47))%R /\
  (Rabs (JS.to_R total - 718319 / 10000) < 1 / 10000)%R /\
  JS.Number_toString total = "71.83185307179586"%string /\
  SrpCompliant.toJson (outputter_of SrpCompliant.demo_shapes) =
    Some (JSON.render (JSON.JObj [("totalArea"%string, JSON.JNum total)])) /\
  SrpCompliant.toJson (outputter_of SrpCompliant.demo_shapes) =
    Some ("{" ++ JSON.quote "totalArea" ++ ":71.83185307179586}")%string.
Proof.
  intros total exact.
  assert (Hexact : exact = (20 * PI + 9)%R).
  { unfold exact, SrpCompliant.sum, SrpCompliant.demo_shapes.
    cbn [SrpCompliant.shapes Array_reduce area_of area
         SrpCompliant.Circle_Shape SrpCompliant.Square_Shape
         SrpCompliant.radius SrpCompliant.length
         num_add num_mul num_lit Math_PI R_Number].
    ring. }
  assert (Htotal : total = S754_finite false 5054717292616751 (-46))
    by (vm_compute; reflexivity).
  pose proof PI_digits as [Hlo Hhi].
  split; [rewrite Hexact; ring|].
  split; [exact Hexact|].
  split; [exact Htotal|].
  rewrite Htotal.
  unfold JS.to_R, cond_Zopp.
  change (0 <=? -46) with false; cbv iota.
  change (2 ^ (- -46)) with 70368744177664.
  change (2 ^ 47) with 140737488355328.
  split; [apply Rabs_def1; lra|].
  split; [apply Rabs_def1; lra|].
  split; [vm_compute; reflexivity|].
  split; vm_compute; reflexivity.
Qed.

(** The first scenario: [Square(10), Circle(5), Triangle(10, 5)]. *)
Example first_scenario :
  OcpCompliant.sum
    (OcpCompliant.Build_AreaCalculator (@OcpCompliant.demo_shapes R _)) =
    (100 + 25 * PI + 25)%R /\
  JS.Number_toString
    (OcpCompliant.sum
       (OcpCompliant.Build_AreaCalculator
          (@OcpCompliant.demo_shapes JS.number _))) =
    "203.53981633974485"%string.
Proof.
  split.
  - unfold OcpCompliant.sum, OcpCompliant.demo_shapes.
    cbn [OcpCompliant.shapes Array_reduce area_of area
         OcpCompliant.Circle_Shape OcpCompliant.Square_Shape
         OcpCompliant.Triangle_Shape
         OcpCompliant.radius OcpCompliant.width OcpCompliant.base
         OcpCompliant.height
         num_add num_mul num_lit num_half Math_PI R_Number].
    field.
  - vm_compute; reflexivity.
Qed.

(** On the doubles the order of the two multiplications matters: for the
    radius [11], [Math.PI * r * r] and [Math.PI * (r * r)] differ. *)
Example circle_area_multiplies_from_the_left :
  area (OcpCompliant.Build_Circle (JS.lit 11)) =
    S754_finite false 6687365374964384 (-44) /\
  JS.mul JS.PI (JS.mul (JS.lit 11) (JS.lit 11)) =
    S754_finite false 6687365374964385 (-44).
Proof. split; vm_compute; reflexivity. Qed.

(** [0.5] is exact. *)
Lemma half_is_exact : JS.to_R JS.half = (1 / 2)%R.
Proof.
  unfold JS.to_R, JS.half, cond_Zopp.
  change (0 <=? -53) with false; cbv iota.
  change (2 ^ (- -53)) with 9007199254740992.
  lra.
Qed.

(** What the four scripts pass to [console.log]. *)
Example scripts_output :
  OcpCompliant.main =
    [VNumber (S754_finite false 7161420632990110 (-45))] /\
  JS.Number_toString (S754_finite false 7161420632990110 (-45)) =
    "203.53981633974485"%string /\
  SrpCompliant.main =
    [VString "Sum of the areas of provided shapes: 71.83185307179586";
     VString ("{" ++ JSON.quote "totalArea" ++ ":71.83185307179586}")] /\
  SrpViolation.main =
    [VString "Sum of the areas of provided shapes: 71.83185307179586"] /\
  OcpViolation.main =
    [OcpViolation.Num (S754_finite false 6281811330769310 (-45))] /\
  JS.Number_toString (S754_finite false 6281811330769310 (-45)) =
    "178.53981633974485"%string.
Proof. repeat split; vm_compute; reflexivity. Qed.

(** * Further properties of the calculators *)

(** ** More facts on the binary64 operations *)

Module JSAlgebra.

Lemma binary_round_aux_opp (s : bool) (m e : Z) (l : location) :
  binary_round_aux JS.prec JS.emax (negb s) m e l =
  SFopp (binary_round_aux JS.prec JS.emax s m e l).
Proof.
  unfold binary_round_aux.
  destruct (shr_fexp JS.prec JS.emax m e l) as [mrs' e'].
  destruct (shr_fexp JS.prec JS.emax _ e' loc_Exact) as [mrs'' e''].
  destruct (shr_m mrs'') as [|p|p]; try reflexivity.
  destruct (e'' <=? JS.emax - JS.prec); reflexivity.
Qed.

Lemma opp_involutive (x : JS.number) : SFopp (SFopp x) = x.
Proof.
  destruct x as [s|s| |s m e]; cbn [SFopp]; rewrite ?negb_involutive;
    reflexivity.
Qed.

Lemma mul_opp_r (x y : JS.number) :
  JS.mul x (SFopp y) = SFopp (JS.mul x y).
Proof.
  destruct x as [sx|sx| |sx mx ex], y as [sy|sy| |sy my ey];
    cbn [SFopp]; unfold JS.mul, SFmul; cbn [SFopp]; try reflexivity;
    destruct sx, sy; cbn [xorb negb]; try reflexivity;
    first [exact (binary_round_aux_opp true _ _ _)
          |exact (binary_round_aux_opp false _ _ _)].
Qed.

Lemma mul_opp_l (x y : JS.number) :
  JS.mul (SFopp x) y = SFopp (JS.mul x y).
Proof.
  destruct x as [sx|sx| |sx mx ex], y as [sy|sy| |sy my ey];
    cbn [SFopp]; unfold JS.mul, SFmul; cbn [SFopp]; try reflexivity;
    destruct sx, sy; cbn [xorb negb]; try reflexivity;
    first [exact (binary_round_aux_opp true _ _ _)
          |exact (binary_round_aux_opp false _ _ _)].
Qed.

Lemma mul_opp_opp (x y : JS.number) :
  JS.mul (SFopp x) (SFopp y) = JS.mul x y.
Proof.
  rewrite mul_opp_l, mul_opp_r. apply opp_involutive.
Qed.

Lemma add_comm (x y : JS.number) : JS.add x y = JS.add y x.
Proof.
  destruct x as [sx|sx| |sx mx ex], y as [sy|sy| |sy my ey];
    try reflexivity; try (destruct sx, sy; reflexivity).
  unfold JS.add, SFadd.
  rewrite (Z.min_comm ey ex).
  f_equal. apply Z.add_comm.
Qed.

Lemma add_NaN_r (x : JS.number) : JS.add x JS.NaN = JS.NaN.
Proof. destruct x; reflexivity. Qed.

Lemma add_Infinity_nonneg (y : JS.number) :
  JS.nonneg y = true -> JS.add JS.Infinity y = JS.Infinity.
Proof.
  destruct y as [[]|[]| |[] m e]; try discriminate; reflexivity.
Qed.

(** Adding to the initial [0] and then adding a second number does not
    depend on which of the two numbers comes first. *)
Lemma add_from_zero_swap (x y : JS.number) :
  JS.add (JS.add (JS.lit 0) x) y = JS.add (JS.add (JS.lit 0) y) x.
Proof.
  change (JS.lit 0) with (S754_zero false).
  destruct x as [sx|sx| |sx mx ex], y as [sy|sy| |sy my ey];
    try reflexivity; try (destruct sx, sy; reflexivity);
    try (destruct sx; reflexivity); try (destruct sy; reflexivity).
  change (JS.add (S754_zero false) (S754_finite sx mx ex))
    with (S754_finite sx mx ex).
  change (JS.add (S754_zero false) (S754_finite sy my ey))
    with (S754_finite sy my ey).
  apply add_comm.
Qed.

(** A number with the sign of a finite one, times that finite one. *)
Lemma mul_same_sign (s : bool) (x : JS.number) (m : positive) (e : Z) :
  JS.has_sign s x -> JS.nonneg (JS.mul x (S754_finite s m e)) = true.
Proof.
  destruct x as [s'|s'| |s' mx ex]; cbn [JS.has_sign]; intros Hs;
    try contradiction; subst s'.
  - unfold JS.mul, SFmul. rewrite xorb_nilpotent. reflexivity.
  - unfold JS.mul, SFmul. rewrite xorb_nilpotent. reflexivity.
  - unfold JS.mul, SFmul. rewrite xorb_nilpotent.
    apply JSFacts.nonneg_has_sign, JSFacts.binary_round_aux_sign; lia.
Qed.

Lemma square_nonneg (w : JS.number) :
  JS.nonneg (JS.mul w w) = negb (JS.is_nan w).
Proof.
  destruct w as [s|s| |s m e]; try (destruct s; reflexivity);
    try reflexivity.
  cbn [JS.is_nan negb].
  apply (mul_same_sign s (S754_finite s m e) m e). reflexivity.
Qed.

Lemma circle_nonneg (r : JS.number) :
  JS.nonneg (JS.mul (JS.mul JS.PI r) r) = negb (JS.is_nan r).
Proof.
  destruct r as [s|s| |s m e]; try (destruct s; reflexivity);
    try reflexivity.
  cbn [JS.is_nan negb].
  apply mul_same_sign.
  unfold JS.mul, JS.PI, SFmul. rewrite xorb_false_l.
  apply JSFacts.binary_round_aux_sign; lia.
Qed.

End JSAlgebra.

(** ** A NaN area *)

Lemma reduce_from_NaN (l : list (shape JS.number)) :
  Array_reduce (fun acc shape => (acc + area_of shape)%num) JS.NaN l =
  JS.NaN.
Proof.
  induction l as [|s l IH]; cbn [Array_reduce].
  - reflexivity.
  - exact IH.
Qed.

Lemma reduce_meets_NaN (l : list (shape JS.number)) :
  Exists (fun s => area_of s = JS.NaN) l ->
  forall acc : JS.number,
    Array_reduce (fun acc shape => (acc + area_of shape)%num) acc l =
    JS.NaN.
Proof.
  induction 1 as [s l Hs|s l Hl IH]; intros acc; cbn [Array_reduce].
  - change (acc + area_of s)%num with (JS.add acc (area_of s)).
    rewrite Hs, JSAlgebra.add_NaN_r. apply reduce_from_NaN.
  - apply IH.
Qed.

(** X1: one shape whose area is NaN makes the whole sum NaN, wherever it
    stands in the collection; [toText] then ends with [NaN] and [toJson]
    is the text of the record whose [totalArea] is [null]. *)
Theorem nan_area_poisons_sum (l : list (shape JS.number))
  (Hnan : Exists (fun s => area_of s = JS.NaN) l) :
  OcpCompliant.sum (OcpCompliant.Build_AreaCalculator l) = JS.NaN /\
  SrpCompliant.sum (SrpCompliant.Build_AreaCalculator l) = JS.NaN /\
  SrpCompliant.toText (outputter_of l) =
    "Sum of the areas of provided shapes: NaN"%string /\
  SrpCompliant.toJson (outputter_of l) =
    Some ("{" ++ JSON.quote "totalArea" ++ ":null}")%string.
Proof.
  assert (H : SrpCompliant.sum (SrpCompliant.Build_AreaCalculator l) = JS.NaN)
    by (apply reduce_meets_NaN; exact Hnan).
  split; [exact H|]. split; [exact H|].
  unfold SrpCompliant.toText, SrpCompliant.toJson, outputter_of.
  cbn [SrpCompliant.areaCalculator].
  rewrite H. split; reflexivity.
Qed.

Lemma nan_area_poisons_sum_witness :
  let l := [Obj (OcpCompliant.Build_Square (JS.lit 3));
            Obj (OcpCompliant.Build_Circle JS.NaN);
            Obj (OcpCompliant.Build_Square (JS.lit 2))] in
  Exists (fun s => area_of s = JS.NaN) l /\
  OcpCompliant.sum (OcpCompliant.Build_AreaCalculator l) = JS.NaN.
Proof.
  intros l.
  assert (H : Exists (fun s => area_of s = JS.NaN) l)
    by (apply Exists_cons_tl, Exists_cons_hd; reflexivity).
  split; [exact H|].
  exact (proj1 (nan_area_poisons_sum l H)).
Defined.

(** ** Squares and circles of any dimension *)

Lemma square_or_circle_area (s : shape JS.number) :
  square_or_circle s ->
  JS.nonneg (area_of s) = true \/ area_of s = JS.NaN.
Proof.
  intros Hs; destruct Hs as [w|r|r|w].
  - change (area_of (Obj (OcpCompliant.Build_Square w)))
      with (JS.mul w w).
    pose proof (JSAlgebra.square_nonneg w) as H.
    destruct w; try (left; exact H). right; reflexivity.
  - change (area_of (Obj (OcpCompliant.Build_Circle r)))
      with (JS.mul (JS.mul JS.PI r) r).
    pose proof (JSAlgebra.circle_nonneg r) as H.
    destruct r; try (left; exact H). right; reflexivity.
  - change (area_of (Obj (SrpCompliant.Build_Circle r)))
      with (JS.mul (JS.mul JS.PI r) r).
    pose proof (JSAlgebra.circle_nonneg r) as H.
    destruct r; try (left; exact H). right; reflexivity.
  - change (area_of (Obj (SrpCompliant.Build_Square w)))
      with (JS.mul w w).
    pose proof (JSAlgebra.square_nonneg w) as H.
    destruct w; try (left; exact H). right; reflexivity.
Qed.

Lemma reduce_nonneg_or_NaN (l : list (shape JS.number)) :
  Forall square_or_circle l ->
  forall acc : JS.number,
    JS.nonneg acc = true \/ acc = JS.NaN ->
    let total :=
      Array_reduce (fun acc shape => (acc + area_of shape)%num) acc l in
    JS.nonneg total = true \/ total = JS.NaN.
Proof.
  induction 1 as [|s l Hs Hl IH]; intros acc Hacc; cbn [Array_reduce].
  - exact Hacc.
  - apply IH.
    change (acc + area_of s)%num with (JS.add acc (area_of s)).
    destruct Hacc as [Hacc| ->]; [|right; reflexivity].
    destruct (square_or_circle_area s Hs) as [Ha|Ha].
    + left. apply JSFacts.add_nonneg; assumption.
    + right. rewrite Ha. apply JSAlgebra.add_NaN_r.
Qed.

(** X2: whatever its dimension (negative, zero, infinite), the area of a
    square or of a circle is never negative and never [-0]: its sign bit
    is clear, unless the dimension is NaN, and then the area is NaN. *)
Theorem square_and_circle_area_sign :
  forall d : JS.number,
    JS.nonneg (area (OcpCompliant.Build_Square d)) = negb (JS.is_nan d) /\
    JS.nonneg (area (OcpCompliant.Build_Circle d)) = negb (JS.is_nan d) /\
    JS.nonneg (area (SrpCompliant.Build_Square d)) = negb (JS.is_nan d) /\
    JS.nonneg (area (SrpCompliant.Build_Circle d)) = negb (JS.is_nan d) /\
    JS.is_nan (area (OcpCompliant.Build_Square d)) = JS.is_nan d /\
    JS.is_nan (area (OcpCompliant.Build_Circle d)) = JS.is_nan d.
Proof.
  intros d.
  pose proof (JSAlgebra.square_nonneg d) as Hsq.
  pose proof (JSAlgebra.circle_nonneg d) as Hci.
  change (area (OcpCompliant.Build_Square d)) with (JS.mul d d).
  change (area (SrpCompliant.Build_Square d)) with (JS.mul d d).
  change (area (OcpCompliant.Build_Circle d))
    with (JS.mul (JS.mul JS.PI d) d).
  change (area (SrpCompliant.Build_Circle d))
    with (JS.mul (JS.mul JS.PI d) d).
  repeat split; try assumption.
  - destruct d; try reflexivity;
      destruct (JS.mul _ _) as [[]|[]| |[] m' e']; try reflexivity;
      discriminate Hsq.
  - destruct d; try reflexivity;
      destruct (JS.mul (JS.mul _ _) _) as [[]|[]| |[] m' e'];
      try reflexivity; discriminate Hci.
Qed.

(** X3: a collection of squares and circles of any dimensions never has
    a negative sum: the sum is NaN or has its sign bit clear. *)
Theorem squares_and_circles_sum_sign (l : list (shape JS.number))
  (Hl : Forall square_or_circle l) :
  JS.nonneg (SrpCompliant.sum (SrpCompliant.Build_AreaCalculator l)) = true \/
  SrpCompliant.sum (SrpCompliant.Build_AreaCalculator l) = JS.NaN.
Proof.
  apply (reduce_nonneg_or_NaN l Hl). left; reflexivity.
Qed.

Lemma squares_and_circles_sum_sign_witness :
  let l := [Obj (SrpCompliant.Build_Circle (JS.lit (-2)));
            Obj (SrpCompliant.Build_Square (JS.lit (-3)))] in
  Forall square_or_circle l /\
  (JS.nonneg (SrpCompliant.sum (SrpCompliant.Build_AreaCalculator l)) = true
   \/ SrpCompliant.sum (SrpCompliant.Build_AreaCalculator l) = JS.NaN).
Proof.
  intros l.
  assert (H : Forall square_or_circle l) by (repeat constructor).
  split; [exact H|].
  exact (squares_and_circles_sum_sign l H).
Defined.

(** ** The sign of a dimension *)

(** X4: negating the dimension of a square or of a circle leaves the
    area unchanged; negating both dimensions of a triangle leaves its
    area unchanged, and negating one of them negates the area. *)
Theorem areas_under_negation :
  forall w r b h : JS.number,
    area (OcpCompliant.Build_Square (negate w)) =
      area (OcpCompliant.Build_Square w) /\
    area (OcpCompliant.Build_Circle (negate r)) =
      area (OcpCompliant.Build_Circle r) /\
    area (OcpCompliant.Build_Triangle (negate b) (negate h)) =
      area (OcpCompliant.Build_Triangle b h) /\
    area (OcpCompliant.Build_Triangle b (negate h)) =
      negate (area (OcpCompliant.Build_Triangle b h)) /\
    area (OcpCompliant.Build_Triangle (negate b) h) =
      negate (area (OcpCompliant.Build_Triangle b h)).
Proof.
  intros w r b h. unfold negate.
  change (area (OcpCompliant.Build_Square (SFopp w)))
    with (JS.mul (SFopp w) (SFopp w)).
  change (area (OcpCompliant.Build_Square w)) with (JS.mul w w).
  change (area (OcpCompliant.Build_Circle (SFopp r)))
    with (JS.mul (JS.mul JS.PI (SFopp r)) (SFopp r)).
  change (area (OcpCompliant.Build_Circle r))
    with (JS.mul (JS.mul JS.PI r) r).
  change (area (OcpCompliant.Build_Triangle (SFopp b) (SFopp h)))
    with (JS.mul (JS.mul JS.half (SFopp b)) (SFopp h)).
  change (area (OcpCompliant.Build_Triangle b (SFopp h)))
    with (JS.mul (JS.mul JS.half b) (SFopp h)).
  change (area (OcpCompliant.Build_Triangle (SFopp b) h))
    with (JS.mul (JS.mul JS.half (SFopp b)) h).
  change (area (OcpCompliant.Build_Triangle b h))
    with (JS.mul (JS.mul JS.half b) h).
  repeat split.
  - apply JSAlgebra.mul_opp_opp.
  - rewrite (JSAlgebra.mul_opp_r JS.PI r). apply JSAlgebra.mul_opp_opp.
  - rewrite (JSAlgebra.mul_opp_r JS.half b). apply JSAlgebra.mul_opp_opp.
  - apply JSAlgebra.mul_opp_r.
  - rewrite (JSAlgebra.mul_opp_r JS.half b). apply JSAlgebra.mul_opp_l.
Qed.

(** ** Order and overflow on the doubles *)

(** X5: on the doubles the sum of two shapes does not depend on their
    order, for any two shapes of any classes; the order can matter only
    from three shapes on. *)
Theorem sum_of_two_shapes_commutes :
  forall a b : shape JS.number,
    OcpCompliant.sum (OcpCompliant.Build_AreaCalculator [a; b]) =
    OcpCompliant.sum (OcpCompliant.Build_AreaCalculator [b; a]) /\
    SrpCompliant.sum (SrpCompliant.Build_AreaCalculator [a; b]) =
    SrpCompliant.sum (SrpCompliant.Build_AreaCalculator [b; a]).
Proof.
  intros a b.
  split; exact (JSAlgebra.add_from_zero_swap (area_of a) (area_of b)).
Qed.

Lemma reduce_from_Infinity (l : list (shape JS.number)) :
  Forall positive_dimensions l ->
  Array_reduce (fun acc shape => (acc + area_of shape)%num) JS.Infinity l =
  JS.Infinity.
Proof.
  induction 1 as [|s l Hs Hl IH]; cbn [Array_reduce].
  - reflexivity.
  - change (JS.Infinity + area_of s)%num
      with (JS.add JS.Infinity (area_of s)).
    rewrite JSAlgebra.add_Infinity_nonneg by
      (apply positive_dimensions_area; exact Hs).
    exact IH.
Qed.

(** X6: overflow is final: once the shapes so far sum to [Infinity],
    appending shapes with positive finite dimensions leaves the sum at
    [Infinity]. *)
Theorem overflow_is_final (l more : list (shape JS.number))
  (Hinf : OcpCompliant.sum (OcpCompliant.Build_AreaCalculator l) =
          JS.Infinity)
  (Hmore : Forall positive_dimensions more) :
  OcpCompliant.sum (OcpCompliant.Build_AreaCalculator (l ++ more)) =
  JS.Infinity.
Proof.
  unfold OcpCompliant.sum in *. cbn [OcpCompliant.shapes] in *.
  rewrite Array_reduce_app, Hinf.
  apply reduce_from_Infinity, Hmore.
Qed.

Lemma overflow_is_final_witness :
  OcpCompliant.sum (OcpCompliant.Build_AreaCalculator [huge_square]) =
    JS.Infinity /\
  Forall positive_dimensions (@OcpCompliant.demo_shapes JS.number _) /\
  OcpCompliant.sum
    (OcpCompliant.Build_AreaCalculator
       ([huge_square] ++ OcpCompliant.demo_shapes)) = JS.Infinity.
Proof.
  assert (H1 : OcpCompliant.sum
                 (OcpCompliant.Build_AreaCalculator [huge_square]) =
               JS.Infinity) by (vm_compute; reflexivity).
  assert (H2 : Forall positive_dimensions
                 (@OcpCompliant.demo_shapes JS.number _))
    by (repeat constructor).
  split; [exact H1|]. split; [exact H2|].
  exact (overflow_is_final _ _ H1 H2).
Defined.

(** ** The violating calculator of the accompanying text *)

Lemma readme_reduce (l : list OcpViolation.any) (acc : JS.number) :
  Array_reduce OcpViolationReadme.callback (OcpViolation.Num acc) l =
  OcpViolation.Num
    (Array_reduce (fun acc shape => (acc + area_of shape)%num) acc
       (recognized_shapes l)).
Proof.
  revert acc; induction l as [|x l IH]; intros acc.
  - reflexivity.
  - destruct x as [s|c|v];
      cbn [Array_reduce recognized_shapes OcpViolationReadme.callback
           OcpViolation.instanceof_Square OcpViolation.instanceof_Circle];
      rewrite IH; reflexivity.
Qed.

(** X7: the calculator shown in the accompanying text, whose callback
    ends with [return total], skips every element that is neither a
    [Square] nor a [Circle]: on every list its result is a number, the
    sum of the areas of the recognized elements; it agrees with the
    calculator of the file exactly on what the latter handles, the lists
    of squares and circles only. *)
Theorem readme_calculator_skips_unknown_shapes :
  (forall l : list OcpViolation.any,
      OcpViolationReadme.sum (OcpViolationReadme.Build_AreaCalculator l) =
      OcpViolation.Num
        (OcpCompliant.sum
           (OcpCompliant.Build_AreaCalculator (recognized_shapes l)))) /\
  (forall l : list OcpViolation.any,
      Forall (fun x => recognized x = true) l ->
      OcpViolation.sum (OcpViolation.Build_AreaCalculator l) =
      OcpViolationReadme.sum (OcpViolationReadme.Build_AreaCalculator l)) /\
  (forall (l : list OcpViolation.any) (v : js_value),
      OcpViolation.sum
        (OcpViolation.Build_AreaCalculator (l ++ [OcpViolation.Other v])) <>
      OcpViolationReadme.sum
        (OcpViolationReadme.Build_AreaCalculator
           (l ++ [OcpViolation.Other v]))).
Proof.
  split; [|split].
  - intros l. apply readme_reduce.
  - intros l Hl.
    unfold OcpViolation.sum, OcpViolationReadme.sum.
    cbn [OcpViolation.shapes OcpViolationReadme.shapes].
    rewrite readme_reduce.
    apply (OcpViolationFacts.reduce_recognized l Hl).
  - intros l v.
    unfold OcpViolation.sum, OcpViolationReadme.sum.
    cbn [OcpViolation.shapes OcpViolationReadme.shapes].
    rewrite readme_reduce, Array_reduce_snoc.
    cbn [OcpViolation.callback OcpViolation.instanceof_Square
         OcpViolation.instanceof_Circle].
    discriminate.
Qed.

Lemma readme_calculator_skips_unknown_shapes_witness :
  let sq := OcpViolation.OfSquare (OcpViolation.Build_Square (JS.lit 10)) in
  let ci := OcpViolation.OfCircle (OcpViolation.Build_Circle (JS.lit 5)) in
  Forall (fun x => recognized x = true) [sq; ci] /\
  OcpViolation.sum (OcpViolation.Build_AreaCalculator [sq; ci]) =
  OcpViolationReadme.sum (OcpViolationReadme.Build_AreaCalculator [sq; ci]).
Proof.
  intros sq ci.
  assert (F : Forall (fun x => recognized x = true) [sq; ci])
    by (repeat constructor).
  split; [exact F|].
  exact (proj1 (proj2 readme_calculator_skips_unknown_shapes) _ F).
Defined.

(** ** The same circles and squares in every calculator *)

Lemma ocp_violation_reduce_data (l : list (SrpViolation.CircleOrSquare JS.number))
  (acc : JS.number) :
  Array_reduce OcpViolation.callback (OcpViolation.Num acc) (map to_any l) =
  OcpViolation.Num (for_of l SrpViolation.loop_body acc).
Proof.
  revert acc; induction l as [|x l IH]; intros acc.
  - reflexivity.
  - destruct x as [c|s];
      cbn [map to_any Array_reduce for_of OcpViolation.callback
           OcpViolation.instanceof_Square OcpViolation.instanceof_Circle];
      rewrite IH; reflexivity.
Qed.

Lemma ocp_compliant_reduce_data (l : list (SrpViolation.CircleOrSquare JS.number))
  (acc : JS.number) :
  Array_reduce (fun acc shape => (acc + area_of shape)%num) acc
    (map to_ocp_compliant l) =
  for_of l SrpViolation.loop_body acc.
Proof.
  revert acc; induction l as [|x l IH]; intros acc.
  - reflexivity.
  - destruct x as [c|s]; cbn [map to_ocp_compliant Array_reduce for_of];
      rewrite IH; reflexivity.
Qed.

(** X8: given the same circles and squares, the calculators of the three
    files return the same double, bit for bit: the OCP-violating [reduce]
    with [instanceof], the SRP-violating loop and the OCP-compliant
    [reduce] over [area()]. *)
Theorem calculators_agree_on_circles_and_squares :
  forall l : list (SrpViolation.CircleOrSquare JS.number),
    OcpViolation.sum (OcpViolation.Build_AreaCalculator (map to_any l)) =
    OcpViolation.Num
      (SrpViolation.sum (SrpViolation.Build_AreaCalculator l)) /\
    OcpCompliant.sum
      (OcpCompliant.Build_AreaCalculator (map to_ocp_compliant l)) =
    SrpViolation.sum (SrpViolation.Build_AreaCalculator l).
Proof.
  intros l. split.
  - apply ocp_violation_reduce_data.
  - apply ocp_compliant_reduce_data.
Qed.

(** ** Exact arithmetic *)





(** ** The SRP-violating loop and single shapes *)

Lemma to_compliant_square_or_circle
  (l : list (SrpViolation.CircleOrSquare JS.number)) :
  Forall square_or_circle (map to_compliant l).
Proof.
  induction l as [|x l IH]; cbn [map].
  - constructor.
  - constructor; [|exact IH]. destruct x; constructor.
Qed.

(** X11: the SRP-violating calculator never returns a negative number
    or [-0], whatever the dimensions of its circles and squares: its sum
    is NaN or has its sign bit clear. *)
Theorem srp_violation_sum_sign :
  forall l : list (SrpViolation.CircleOrSquare JS.number),
    JS.nonneg (SrpViolation.sum (SrpViolation.Build_AreaCalculator l)) = true
    \/ SrpViolation.sum (SrpViolation.Build_AreaCalculator l) = JS.NaN.
Proof.
  intros l.
  unfold SrpViolation.sum. cbn [SrpViolation.shapes].
  rewrite for_loop_is_reduce.
  apply (reduce_nonneg_or_NaN _ (to_compliant_square_or_circle l)).
  left; reflexivity.
Qed.

Lemma add_zero_l (x : JS.number) :
  JS.nonneg x = true \/ x = JS.NaN -> JS.add (JS.lit 0) x = x.
Proof.
  intros [H| ->]; [|reflexivity].
  destruct x as [[]|[]| |[] m e]; try discriminate H; reflexivity.
Qed.

(** X12: for a single square or circle the sum is exactly its area: the
    initial [0] changes nothing. *)
Theorem sum_of_one_square_or_circle (s : shape JS.number)
  (Hs : square_or_circle s) :
  OcpCompliant.sum (OcpCompliant.Build_AreaCalculator [s]) = area_of s /\
  SrpCompliant.sum (SrpCompliant.Build_AreaCalculator [s]) = area_of s.
Proof.
  split; exact (add_zero_l _ (square_or_circle_area s Hs)).
Qed.

Lemma sum_of_one_square_or_circle_witness :
  let s := Obj (OcpCompliant.Build_Circle (JS.lit 5)) in
  square_or_circle s /\
  OcpCompliant.sum (OcpCompliant.Build_AreaCalculator [s]) = area_of s.
Proof.
  intros s.
  assert (H : square_or_circle s) by constructor.
  split; [exact H|].
  exact (proj1 (sum_of_one_square_or_circle s H)).
Defined.
